(** * CNCJobManager: sheet status store, HTTP routes, broadcast and the
    optimistic sheet grid of the job popup.

    Sources embedded here:
    - shared/schema.ts        : the [job_materials] and [recut_entries] rows;
    - server/routes.ts        : requireAuth, the material/recut routes and
                                broadcastToClients over the socket set;
    - the JobPopup component  : handleSheetClick, updateSheetMutation and the
                                sheet grid rendering.
    server/storage.ts is not part of the sources; its operations are
    modelled from the spec (section 4.1) and marked so. *)

From Stdlib Require Import ZArith String List Bool Lia.
From stdpp Require Import base gmap sets list strings.
Import ListNotations.
Open Scope string_scope.
Open Scope Z_scope.

(* ------------------------------------------------------------------ *)
(** ** Data model (shared/schema.ts) *)

(** Sheet statuses are stored as plain text: 'cut', 'skip', 'pending'. *)
Definition is_cut (s : string) : bool := String.eqb s "cut".

Definition count_cut (l : list string) : Z :=
  Z.of_nat (length (filter (fun s => is_cut s = true) l)).

Definition valid_status (s : string) : bool :=
  String.eqb s "pending" || String.eqb s "cut" || String.eqb s "skip".

Module JobMaterial.
(** [jobMaterials] row. *)
Record t := mk {
  cutlistId : option Z;
  colorId : Z;
  totalSheets : Z;
  completedSheets : Z;
  sheetStatuses : list string
}.
End JobMaterial.

Module RecutEntry.
(** [recutEntries] row. *)
Record t := mk {
  materialId : Z;
  quantity : Z;
  reason : option string;
  sheetStatuses : list string;
  completedSheets : Z;
  userId : option Z
}.
End RecutEntry.

(** The persisted tables used by the sheet routes, with their serial
    counters. *)
Record Store := mkStore {
  jobMaterials : gmap Z JobMaterial.t;
  recutEntries : gmap Z RecutEntry.t;
  nextMaterialId : Z;
  nextRecutId : Z
}.

(** Failure kinds of the storage layer (spec section 7). *)
Inductive StorageError := NotFound | OutOfRange | InvalidArgument.

Inductive Result (A : Type) := Ok (a : A) | Err (e : StorageError).
Arguments Ok {A} a.
Arguments Err {A} e.

Definition pending_sheets (n : Z) : list string := repeat "pending" (Z.to_nat n).

Definition set_material (st : Store) (id : Z) (m : JobMaterial.t) : Store :=
  mkStore (<[id := m]> (jobMaterials st)) (recutEntries st)
          (nextMaterialId st) (nextRecutId st).

Definition set_recut (st : Store) (id : Z) (r : RecutEntry.t) : Store :=
  mkStore (jobMaterials st) (<[id := r]> (recutEntries st))
          (nextMaterialId st) (nextRecutId st).

Definition new_recut (st : Store) (r : RecutEntry.t) : Store :=
  mkStore (jobMaterials st) (<[nextRecutId st := r]> (recutEntries st))
          (nextMaterialId st) (nextRecutId st + 1).

Definition out_of_range (idx bound : Z) : bool := (idx <? 0) || (bound <=? idx).

(* ------------------------------------------------------------------ *)
(** ** Storage (server/storage.ts, absent from the sources) *)

Module Storage.

(** Modelled from the spec: storage.addMaterialToJob / material creation
    (section 3, Lifecycle): a material is created with an all-pending status
    sequence of length [totalSheets]; non-positive counts are rejected as
    InvalidArgument (section 7). *)
Definition createMaterial (st : Store) (cutlistId : option Z) (colorId n : Z)
  : Result Store :=
  if n <? 1 then Err InvalidArgument
  else Ok (mkStore
             (<[nextMaterialId st := JobMaterial.mk cutlistId colorId n 0 (pending_sheets n)]>
                (jobMaterials st))
             (recutEntries st) (nextMaterialId st + 1) (nextRecutId st)).

(** Modelled from the spec: storage.updateSheetStatus (section 4.1,
    setSheetStatus): NotFound, then OutOfRange against [totalSheets], then
    InvalidArgument; sets the index and recomputes [completedSheets]. *)
Definition updateSheetStatus (st : Store) (id sheetIndex : Z) (status : string)
  : Result Store :=
  match jobMaterials st !! id with
  | None => Err NotFound
  | Some m =>
      if out_of_range sheetIndex (JobMaterial.totalSheets m) then Err OutOfRange
      else if negb (valid_status status) then Err InvalidArgument
      else
        let ss := <[Z.to_nat sheetIndex := status]> (JobMaterial.sheetStatuses m) in
        Ok (set_material st id
              (JobMaterial.mk (JobMaterial.cutlistId m) (JobMaterial.colorId m)
                 (JobMaterial.totalSheets m) (count_cut ss) ss))
  end.

(** Modelled from the spec: storage.updateRecutSheetStatus (section 4.1,
    setRecutSheetStatus): the same contract, bounded by the recut's
    [quantity]. *)
Definition updateRecutSheetStatus (st : Store) (recutId sheetIndex : Z)
  (status : string) : Result Store :=
  match recutEntries st !! recutId with
  | None => Err NotFound
  | Some r =>
      if out_of_range sheetIndex (RecutEntry.quantity r) then Err OutOfRange
      else if negb (valid_status status) then Err InvalidArgument
      else
        let ss := <[Z.to_nat sheetIndex := status]> (RecutEntry.sheetStatuses r) in
        Ok (set_recut st recutId
              (RecutEntry.mk (RecutEntry.materialId r) (RecutEntry.quantity r)
                 (RecutEntry.reason r) ss (count_cut ss) (RecutEntry.userId r)))
  end.

(** Modelled from the spec: storage.addRecutEntry (section 4.1): a new recut
    entry with an all-pending sequence of length [quantity]. *)
Definition addRecutEntry (st : Store) (materialId quantity : Z)
  (reason : option string) (userId : option Z) : Result Store :=
  match jobMaterials st !! materialId with
  | None => Err NotFound
  | Some _ =>
      if quantity <? 1 then Err InvalidArgument
      else Ok (new_recut st
                 (RecutEntry.mk materialId quantity reason
                    (pending_sheets quantity) 0 userId))
  end.

(** Modelled from the spec: storage.addSheetsToMaterial (section 4.1,
    addSheets): appends [count] pending entries to the material, or, when
    [isRecut], creates a recut entry of quantity [count]. *)
Definition addSheetsToMaterial (st : Store) (materialId count : Z)
  (isRecut : bool) : Result Store :=
  match jobMaterials st !! materialId with
  | None => Err NotFound
  | Some m =>
      if count <? 1 then Err InvalidArgument
      else if isRecut then
        Ok (new_recut st
              (RecutEntry.mk materialId count None (pending_sheets count) 0 None))
      else
        Ok (set_material st materialId
              (JobMaterial.mk (JobMaterial.cutlistId m) (JobMaterial.colorId m)
                 (JobMaterial.totalSheets m + count)
                 (JobMaterial.completedSheets m)
                 (JobMaterial.sheetStatuses m ++ pending_sheets count)))
  end.

(** Modelled from the spec: storage.deleteSheet (section 4.1): removes the
    index, shifting later entries left, and decrements [totalSheets]; the
    cached [completedSheets] is recomputed, as section 8 requires the count
    to hold after every mutation. *)
Definition deleteSheet (st : Store) (materialId sheetIndex : Z) : Result Store :=
  match jobMaterials st !! materialId with
  | None => Err NotFound
  | Some m =>
      if out_of_range sheetIndex (JobMaterial.totalSheets m) then Err OutOfRange
      else
        let ss := delete (Z.to_nat sheetIndex) (JobMaterial.sheetStatuses m) in
        Ok (set_material st materialId
              (JobMaterial.mk (JobMaterial.cutlistId m) (JobMaterial.colorId m)
                 (JobMaterial.totalSheets m - 1) (count_cut ss) ss))
  end.

(** Modelled from the spec: storage.getRecutEntries: the recut entries of a
    material. *)
Definition getRecutEntries (st : Store) (materialId : Z) : list RecutEntry.t :=
  map snd (map_to_list
             (filter (fun '(_, r) => RecutEntry.materialId r = materialId)
                (recutEntries st))).

(** Every mutating storage operation, for stating store invariants. *)
Inductive Op :=
  | OpCreateMaterial (cutlistId : option Z) (colorId n : Z)
  | OpUpdateSheetStatus (id sheetIndex : Z) (status : string)
  | OpUpdateRecutSheetStatus (recutId sheetIndex : Z) (status : string)
  | OpAddRecutEntry (materialId quantity : Z) (reason : option string) (userId : option Z)
  | OpAddSheets (materialId count : Z) (isRecut : bool)
  | OpDeleteSheet (materialId sheetIndex : Z).

Definition run (st : Store) (op : Op) : Result Store :=
  match op with
  | OpCreateMaterial c col n => createMaterial st c col n
  | OpUpdateSheetStatus id i s => updateSheetStatus st id i s
  | OpUpdateRecutSheetStatus id i s => updateRecutSheetStatus st id i s
  | OpAddRecutEntry mid q r u => addRecutEntry st mid q r u
  | OpAddSheets mid c b => addSheetsToMaterial st mid c b
  | OpDeleteSheet mid i => deleteSheet st mid i
  end.

End Storage.

(** Store invariants of section 3. *)
Definition material_len_ok (m : JobMaterial.t) : Prop :=
  Z.of_nat (length (JobMaterial.sheetStatuses m)) = JobMaterial.totalSheets m.

Definition lengths_ok (st : Store) : Prop :=
  map_Forall (fun _ m => material_len_ok m) (jobMaterials st).

Definition counts_ok (st : Store) : Prop :=
  map_Forall (fun _ m => JobMaterial.completedSheets m
                         = count_cut (JobMaterial.sheetStatuses m)) (jobMaterials st)
  /\ map_Forall (fun _ r => RecutEntry.completedSheets r
                            = count_cut (RecutEntry.sheetStatuses r)) (recutEntries st).

(* ------------------------------------------------------------------ *)
(** ** Client status cycle (JobPopup handleSheetClick / RecutsList
    handleRecutSheetClick, which inline the same if-chain) *)

Definition newStatus_of (actualStatus : string) : string :=
  if String.eqb actualStatus "pending" then "cut"
  else if String.eqb actualStatus "cut" then "skip"
  else "pending".

(* ------------------------------------------------------------------ *)
(** ** Server routes and real-time channel (server/routes.ts) *)

Module Server.

(** JSON values placed in broadcast payloads. *)
Inductive JVal :=
  | JUndefined
  | JNull
  | JNum (n : Z)
  | JStr (s : string).

(** A body field read as a count ([additionalSheets], [quantity]); JSON
    numbers are taken as integers. *)
Inductive CountArg := CUndefined | CNull | CNum (n : Z).

Definition count_jval (c : CountArg) : JVal :=
  match c with CUndefined => JUndefined | CNull => JNull | CNum n => JNum n end.

(** [!x]: undefined, null and 0 are falsy. *)
Definition js_not (c : CountArg) : bool :=
  match c with CUndefined | CNull => true | CNum n => n =? 0 end.

(** [x < 1]: undefined converts to NaN (false), null to 0. *)
Definition js_lt1 (c : CountArg) : bool :=
  match c with CUndefined => false | CNull => true | CNum n => n <? 1 end.

(** The value handed to storage once the guard has passed. *)
Definition count_value (c : CountArg) : Z :=
  match c with CNum n => n | _ => 0 end.

(** [broadcastToClients] message: [{ type, data }]. *)
Record Event := mkEvent { ev_type : string; ev_data : list (string * JVal) }.

(** WebSocket readyState. *)
Inductive ReadyState := CONNECTING | OPEN | CLOSING | CLOSED.

Definition ready_open (r : ReadyState) : bool :=
  match r with OPEN => true | _ => false end.

(** A socket: its state and the messages sent on it, in order. *)
Record Conn := mkConn { readyState : ReadyState; sent : list Event }.

(** [req.session.user]. *)
Record User := mkUser { uid : Z; role : string }.

Record State := mkState {
  db : Store;
  sockets : gmap Z Conn;   (* every socket object, by identity *)
  clients : gset Z         (* the shared [clients] set of routes.ts *)
}.

(** Response status and JSON body. *)
Inductive Body :=
  | Message (s : string)
  | Recuts (l : list RecutEntry.t).

Record Response := mkResp { code : Z; body : Body }.

Definition ok (s : string) : Response := mkResp 200 (Message s).

(** wss.on('connection'): [clients.add(ws)]. *)
Definition on_connection (st : State) (ws : Z) : State :=
  mkState (db st) (<[ws := mkConn OPEN []]> (sockets st)) ({[ws]} ∪ clients st).

(** ws.on('close'): the socket is closed and [clients.delete(ws)]. *)
Definition on_close (st : State) (ws : Z) : State :=
  mkState (db st)
    (match sockets st !! ws with
     | Some c => <[ws := mkConn CLOSED (sent c)]> (sockets st)
     | None => sockets st
     end)
    (clients st ∖ {[ws]}).

(** [client.send(messageStr)] on one socket, if its readyState is OPEN. *)
Definition send_if_open (ev : Event) (ws : Z) (socks : gmap Z Conn) : gmap Z Conn :=
  match socks !! ws with
  | Some c => if ready_open (readyState c)
              then <[ws := mkConn (readyState c) (sent c ++ [ev])]> socks
              else socks
  | None => socks
  end.

(** [clients.forEach(...)]. *)
Definition broadcastToClients (ev : Event) (st : State) : State :=
  mkState (db st) (set_fold (send_if_open ev) (sockets st) (clients st)) (clients st).

Definition with_db (st : State) (d : Store) : State :=
  mkState d (sockets st) (clients st).

(** The routes over material sheets and recuts. Path ids are the results
    of [parseInt]. *)
Inductive Request :=
  | PutMaterialSheetStatus (id sheetIndex : Z) (status : string)
      (* PUT /api/materials/:id/sheet-status *)
  | PostMaterialSheet (materialId sheetIndex : Z) (status : string)
      (* POST /api/materials/:materialId/sheets/:sheetIndex *)
  | PutRecutSheetStatus (recutId sheetIndex : Z) (status : string)
      (* PUT /api/recuts/:id/sheet-status *)
  | PostAddSheets (materialId : Z) (additionalSheets : CountArg) (isRecut : bool)
      (* POST /api/materials/:id/add-sheets *)
  | PostRecuts (materialId : Z) (quantity : CountArg) (reason : option string)
      (* POST /api/materials/:id/recuts *)
  | DeleteSheet (materialId sheetIndex : Z)
      (* DELETE /api/materials/:id/sheet/:sheetIndex *)
  | GetRecuts (materialId : Z)
      (* GET /api/materials/:id/recuts *).

(** requireAuth: [if (!req.session?.user) return 401]. *)
Definition requireAuth (user : option User) (st : State)
  (next : unit -> State * Response) : State * Response :=
  match user with
  | None => (st, mkResp 401 (Message "Authentication required"))
  | Some _ => next tt
  end.

(** The route handlers, after their middleware. *)
Definition handler (st : State) (req : Request) : State * Response :=
  match req with
  | PutMaterialSheetStatus id sheetIndex status =>
      match Storage.updateSheetStatus (db st) id sheetIndex status with
      | Err _ => (st, mkResp 500 (Message "Failed to update sheet status"))
      | Ok d =>
          (broadcastToClients
             (mkEvent "sheet_status_updated"
                [("id", JNum id); ("sheetIndex", JNum sheetIndex); ("status", JStr status)])
             (with_db st d),
           ok "Sheet status updated")
      end
  | PostMaterialSheet materialId sheetIndex status =>
      match Storage.updateSheetStatus (db st) materialId sheetIndex status with
      | Err _ => (st, mkResp 500 (Message "Failed to update sheet status"))
      | Ok d =>
          (broadcastToClients
             (mkEvent "sheet_status_updated"
                [("materialId", JNum materialId); ("sheetIndex", JNum sheetIndex);
                 ("status", JStr status)])
             (with_db st d),
           ok "Sheet status updated")
      end
  | PutRecutSheetStatus recutId sheetIndex status =>
      match Storage.updateRecutSheetStatus (db st) recutId sheetIndex status with
      | Err _ => (st, mkResp 500 (Message "Failed to update recut sheet status"))
      | Ok d =>
          (broadcastToClients
             (mkEvent "recut_sheet_status_updated"
                [("recutId", JNum recutId); ("sheetIndex", JNum sheetIndex);
                 ("status", JStr status)])
             (with_db st d),
           ok "Recut sheet status updated")
      end
  | PostAddSheets materialId additionalSheets isRecut =>
      if js_not additionalSheets || js_lt1 additionalSheets then
        (st, mkResp 400 (Message "Additional sheets must be a positive number"))
      else
        match Storage.addSheetsToMaterial (db st) materialId
                (count_value additionalSheets) isRecut with
        | Err _ => (st, mkResp 500 (Message "Failed to add sheets"))
        | Ok d => (with_db st d, ok "Sheets added successfully")
        end
  | PostRecuts materialId quantity reason =>
      if js_not quantity || js_lt1 quantity then
        (st, mkResp 400 (Message "Invalid recut quantity"))
      else
        (* [(req as any).user?.id]: nothing sets [req.user], so undefined *)
        match Storage.addRecutEntry (db st) materialId (count_value quantity)
                reason None with
        | Err _ => (st, mkResp 500 (Message "Failed to add recut entry"))
        | Ok d =>
            (broadcastToClients
               (mkEvent "recut_added"
                  [("materialId", JNum materialId); ("quantity", count_jval quantity);
                   ("reason", match reason with Some r => JStr r | None => JUndefined end)])
               (with_db st d),
             ok "Recut entry added successfully")
        end
  | DeleteSheet materialId sheetIndex =>
      match Storage.deleteSheet (db st) materialId sheetIndex with
      | Err _ => (st, mkResp 500 (Message "Failed to delete sheet"))
      | Ok d =>
          (broadcastToClients
             (mkEvent "sheet_deleted"
                [("materialId", JNum materialId); ("sheetIndex", JNum sheetIndex)])
             (with_db st d),
           ok "Sheet deleted successfully")
      end
  | GetRecuts materialId =>
      (st, mkResp 200 (Recuts (Storage.getRecutEntries (db st) materialId)))
  end.

(** The middleware chain registered for each route: every route above but
    GET /api/materials/:id/recuts is registered with requireAuth. *)
Definition uses_requireAuth (req : Request) : bool :=
  match req with GetRecuts _ => false | _ => true end.

Definition handle (st : State) (user : option User) (req : Request)
  : State * Response :=
  if uses_requireAuth req then requireAuth user st (fun _ => handler st req)
  else handler st req.

(** The requests that change sheet or recut state. *)
Definition is_status_mutation (req : Request) : bool :=
  match req with GetRecuts _ => false | _ => true end.

End Server.

(* ------------------------------------------------------------------ *)
(** ** JobPopup sheet grid and updateSheetMutation *)

Module Popup.

(** The context returned by onMutate. *)
Record Ctx := mkCtx {
  c_materialId : Z;
  c_sheetIndex : Z;
  previousStatus : option string
}.

Record State := mkState {
  (* optimisticSheetStatuses : Record<materialId, Record<sheetIndex, string>> *)
  optimisticSheetStatuses : gmap Z (gmap Z string);
  (* material.sheetStatuses of the last fetched /api/jobs/:jobId *)
  job : gmap Z (list string);
  (* updateSheetMutation.isPending *)
  isPending : bool;
  (* contexts of the mutations not yet settled, oldest first *)
  inflight : list Ctx;
  (* PUT /api/materials/:id/sheet-status calls issued: (materialId, sheetIndex, status) *)
  requests : list (Z * Z * string);
  (* toast titles shown *)
  toasts : list string
}.

Definition optimistic_of (p : State) (materialId sheetIndex : Z) : option string :=
  optimisticSheetStatuses p !! materialId ≫= fun row => row !! sheetIndex.

(** [x || 'pending'] on a status: undefined and '' are falsy. *)
Definition or_pending (o : option string) : string :=
  match o with
  | Some s => if String.eqb s "" then "pending" else s
  | None => "pending"
  end.

(** [material.sheetStatuses?.[index] || 'pending']. *)
Definition serverStatus (p : State) (materialId index : Z) : string :=
  or_pending (job p !! materialId ≫= fun l => if index <? 0 then None else l !! Z.to_nat index).

(** The rendered [status] of a sheet button. *)
Definition displayed (p : State) (materialId index : Z) : string :=
  match optimistic_of p materialId index with
  | Some s => s
  | None => serverStatus p materialId index
  end.

(** setOptimisticSheetStatuses(prev => ({...prev, [m]: {...prev[m], [i]: s}})). *)
Definition set_optimistic (o : gmap Z (gmap Z string)) (m i : Z) (s : string)
  : gmap Z (gmap Z string) :=
  <[m := <[i := s]> (default ∅ (o !! m))]> o.

(** updateSheetMutation.mutate: onMutate, then the request is issued. *)
Definition mutate (p : State) (materialId sheetIndex : Z) (status : string) : State :=
  mkState (set_optimistic (optimisticSheetStatuses p) materialId sheetIndex status)
          (job p) true
          (inflight p ++ [mkCtx materialId sheetIndex (optimistic_of p materialId sheetIndex)])
          (requests p ++ [(materialId, sheetIndex, status)])
          (toasts p).

Definition handleSheetClick (p : State) (materialId sheetIndex : Z)
  (currentStatus : string) : State :=
  let actualStatus :=
    match optimistic_of p materialId sheetIndex with
    | Some s => s
    | None => currentStatus
    end in
  mutate p materialId sheetIndex (newStatus_of actualStatus).

(** A click on the button of sheet [index]: the button is
    [disabled={isPending}], otherwise onClick calls handleSheetClick with the
    rendered status. *)
Definition click (p : State) (materialId index : Z) : State :=
  if isPending p then p
  else handleSheetClick p materialId index (displayed p materialId index).

(** The oldest in-flight request succeeds: onSuccess invalidates
    /api/jobs/:jobId, which is refetched as [fetched]. *)
Definition settle_success (p : State) (fetched : gmap Z (list string)) : State :=
  mkState (optimisticSheetStatuses p) fetched false (tail (inflight p))
          (requests p) (toasts p).

(** The oldest in-flight request fails: onError rolls back to
    [context.previousStatus || 'pending'] and shows a toast. *)
Definition settle_error (p : State) : State :=
  match inflight p with
  | [] => p
  | c :: rest =>
      mkState (set_optimistic (optimisticSheetStatuses p) (c_materialId c)
                 (c_sheetIndex c) (or_pending (previousStatus c)))
              (job p) false rest (requests p) (toasts p ++ ["Error"])
  end.

Definition initial (fetched : gmap Z (list string)) : State :=
  mkState ∅ fetched false [] [] [].

End Popup.

(* ------------------------------------------------------------------ *)
(** ** String.prototype.toLowerCase on ASCII text *)

Definition ascii_lower (c : Ascii.ascii) : Ascii.ascii :=
  let n := Ascii.nat_of_ascii c in
  if (65 <=? n)%nat && (n <=? 90)%nat then Ascii.ascii_of_nat (n + 32) else c.

Fixpoint toLowerCase (s : string) : string :=
  match s with
  | EmptyString => EmptyString
  | String c r => String (ascii_lower c) (toLowerCase r)
  end.

(* ------------------------------------------------------------------ *)
(** ** User management routes (server/routes.ts)

    server/storage.ts is absent, so every storage read a route makes is an
    input of the route (the row or rows it returns), and the mutating
    storage calls a route makes are its output, in order. bcrypt is a
    parameter. *)

Module Users.

(** [users] row. *)
Record UserRow := mkUserRow {
  id : Z;
  username : string;
  password : string;
  email : option string;
  role : string
}.

(** Argument of storage.createUser. *)
Record NewUser := mkNewUser {
  new_username : string;
  new_email : option string;
  new_password : string;
  new_role : string
}.

(** [updateData] of PUT /api/users/:id: a field is set or absent;
    [upd_email = Some None] is [email: null]. *)
Record UpdateData := mkUpdateData {
  upd_username : option string;
  upd_email : option (option string);
  upd_password : option string;
  upd_role : option string
}.

Inductive Call :=
  | CreateUser (u : NewUser)
  | UpdateUser (userId : Z) (d : UpdateData)
  | DeleteUser (userId : Z).

Inductive UBody :=
  | UMessage (s : string)
  | UUser (id : Z) (username role : string)
  | UStoredUser      (* the fields of the row storage returned *)
  | UUsers (l : list (Z * string * option string * string)).

Record UResp := mkUResp { ucode : Z; ubody : UBody }.

Definition reply (c : Z) (s : string) : list Call * UResp := ([], mkUResp c (UMessage s)).

(** A JSON body field read as a string: undefined, null or a string. *)
Inductive StrArg := SUndefined | SNull | SStr (s : string).

Definition truthy (a : StrArg) : bool :=
  match a with SStr s => negb (String.eqb s "") | _ => false end.

(** [['user', 'admin', 'super_admin'].includes(role)]. *)
Definition valid_role (a : StrArg) : bool :=
  match a with
  | SStr r => existsb (String.eqb r) ["user"; "admin"; "super_admin"]
  | _ => false
  end.

(** requireSuperAdmin: [!req.session?.user || role !== 'super_admin'] gives
    403; [next] reads [req.session.user]. *)
Definition requireSuperAdmin (user : option Server.User)
  (next : Server.User -> list Call * UResp) : list Call * UResp :=
  match user with
  | Some u => if String.eqb (Server.role u) "super_admin" then next u
              else reply 403 "Super admin access required"
  | None => reply 403 "Super admin access required"
  end.

(** GET /api/users, [allUsers] being storage.getAllUsers(). *)
Definition getUsers (user : option Server.User) (allUsers : list UserRow)
  : list Call * UResp :=
  requireSuperAdmin user (fun _ =>
    ([], mkUResp 200 (UUsers (map (fun u => (id u, username u, email u, role u)) allUsers)))).

(** POST /api/users. [insertUserSchema.parse] requires [username] and
    [password] to be strings (a failure is caught as a 500); [lookup] is
    storage.getUserByUsername. *)
Definition createUser (user : option Server.User) (lookup : string -> option UserRow)
  (hash : string -> string) (username password : StrArg) (email : option string)
  (role : StrArg) : list Call * UResp :=
  requireSuperAdmin user (fun _ =>
    match username, password with
    | SStr un, SStr pw =>
        if negb (truthy username) || negb (truthy password) then
          reply 400 "Username and password are required"
        else if negb (valid_role role) then reply 400 "Invalid role specified"
        else match lookup un with
             | Some _ => reply 400 "Username already exists"
             | None =>
                 ([CreateUser (mkNewUser (toLowerCase un) email (hash pw)
                                 (match role with
                                  | SStr r => if String.eqb r "" then "admin" else r
                                  | _ => "admin"
                                  end))],
                  mkUResp 200 UStoredUser)
             end
    | _, _ => reply 500 "Failed to create user"
    end).

(** PUT /api/users/:id, the body read raw; [lookup] is
    storage.getUserByUsername. *)
Definition updateUser (user : option Server.User) (lookup : string -> option UserRow)
  (hash : string -> string) (userId : Z) (username email password role : StrArg)
  : list Call * UResp :=
  requireSuperAdmin user (fun _ =>
    if truthy role && negb (valid_role role) then reply 400 "Invalid role specified"
    else
      let name_check :=
        match username with
        | SStr un =>
            if truthy username then
              let lowerUsername := toLowerCase un in
              match lookup lowerUsername with
              | Some ex => if negb (id ex =? userId) then None else Some (Some lowerUsername)
              | None => Some (Some lowerUsername)
              end
            else Some None
        | _ => Some None
        end in
      match name_check with
      | None => reply 400 "Username already exists"
      | Some newName =>
          let d := mkUpdateData newName
                     (match email with
                      | SUndefined => None
                      | SNull => Some None
                      | SStr e => Some (if String.eqb e "" then None else Some e)
                      end)
                     (match password with
                      | SStr p => if truthy password then Some (hash p) else None
                      | _ => None
                      end)
                     (match role with
                      | SStr r => if truthy role then Some r else None
                      | _ => None
                      end) in
          ([UpdateUser userId d], mkUResp 200 UStoredUser)
      end).

(** DELETE /api/users/:id. *)
Definition deleteUser (user : option Server.User) (userId : Z) : list Call * UResp :=
  requireSuperAdmin user (fun u =>
    if userId =? Server.uid u then reply 400 "Cannot delete your own account"
    else ([DeleteUser userId], mkUResp 200 (UMessage "User deleted successfully"))).

(** POST /api/setup, [existingUsers] being storage.getAllUsers(). *)
Definition setup (existingUsers : list UserRow) (hash : string -> string)
  (username password : StrArg) : list Call * UResp :=
  if (0 <? length existingUsers)%nat then reply 400 "Setup already completed"
  else if negb (truthy username) || negb (truthy password) then
    reply 400 "Username and password required"
  else match username, password with
       | SStr un, SStr pw =>
           ([CreateUser (mkNewUser (toLowerCase un) None (hash pw) "super_admin")],
            mkUResp 200 (UMessage "Initial admin user created successfully"))
       | _, _ => reply 400 "Username and password required"
       end.

(** POST /api/login: [loginSchema] requires two non-empty strings (a failure
    is caught as a 500); the result is the user stored in the session, if
    any, and the response. [compare] is bcrypt.compare. *)
Definition login (lookup : string -> option UserRow) (compare : string -> string -> bool)
  (reqUsername reqPassword : StrArg) : option UserRow * UResp :=
  match reqUsername, reqPassword with
  | SStr un, SStr pw =>
      if (String.length un =? 0)%nat || (String.length pw =? 0)%nat then
        (None, mkUResp 500 (UMessage "Login failed"))
      else match lookup (toLowerCase un) with
           | Some u =>
               if compare pw (password u) then
                 (Some u, mkUResp 200 (UUser (id u) (username u) (role u)))
               else (None, mkUResp 401 (UMessage "Invalid credentials"))
           | None => (None, mkUResp 401 (UMessage "Invalid credentials"))
           end
  | _, _ => (None, mkUResp 500 (UMessage "Login failed"))
  end.

End Users.

(** The admin page (client/src/pages/admin.tsx): the users query and the
    Users tab are enabled by [user?.role === 'admin']. *)
Definition usersQueryEnabled (user : option Server.User) : bool :=
  match user with Some u => String.eqb (Server.role u) "admin" | None => false end.

(* ------------------------------------------------------------------ *)
(** ** Supplies page filters (client/src/pages/supplies.tsx) *)

Module Supplies.

Record Supply := mkSupply {
  id : Z;
  name : string;
  pieceSize : string;
  quantityOnHand : Z;
  category : string;
  location : string
}.

(** [String.prototype.includes]. *)
Fixpoint str_includes (s sub : string) : bool :=
  String.prefix sub s ||
  match s with EmptyString => false | String _ r => str_includes r sub end.

(** [Array.prototype.includes] on strings. *)
Definition includes (l : list string) (x : string) : bool := existsb (String.eqb x) l.

Definition categories : list string :=
  ["1-Sheet Materials"; "2-Edgebandings"; "3-Hardwood Materials";
   "4-Drawer Box Materials"; "5-Drawer Glides"; "6-Hinges / Plates / Handles";
   "7-Accessories / Inserts"; "8-Other Inventory"].

Definition locations : list string :=
  ["Bay 1"; "Bay 2"; "Bay 3"; "Bay 4"; "Bay 5"; "Bay 6"; "Bay 7";
   "Rack 1"; "Rack 2"; "Rack 3"; "Shipping Goods"; "Unassigned"].

(** [filteredSupplies], over the supply list. *)
Definition filteredSupplies (supplies : list Supply) (searchTerm : string)
  (selectedCategories selectedLocations : list string) : list Supply :=
  List.filter (fun supply =>
    str_includes (toLowerCase (name supply)) (toLowerCase searchTerm)
    && includes selectedCategories (category supply)
    && includes selectedLocations (location supply)) supplies.

(** toggleCategory / toggleLocation. *)
Definition toggle (prev : list string) (x : string) : list string :=
  if includes prev x then List.filter (fun c => negb (String.eqb c x)) prev
  else prev ++ [x].

(** toggleAllCategories / toggleAllLocations. *)
Definition toggleAll (selected universe : list string) : list string :=
  if (length selected =? length universe)%nat then [] else universe.

End Supplies.

(* ------------------------------------------------------------------ *)
(** ** Concrete inputs *)

(** A material with six pending sheets (spec section 8). *)
Definition material5 : JobMaterial.t :=
  JobMaterial.mk (Some 1) 3 6 0 (pending_sheets 6).

Definition store0 : Store := mkStore {[5 := material5]} ∅ 6 1.

(** [store0] after adding three sheets to material 5. *)
Definition store_added : Store :=
  mkStore {[5 := JobMaterial.mk (Some 1) 3 9 0 (pending_sheets 9)]} ∅ 6 1.

(** Two viewers connected; viewer 2 closed its socket again. *)
Definition srv0 : Server.State :=
  Server.on_close
    (Server.on_connection (Server.on_connection (Server.mkState store0 ∅ ∅) 1) 2) 2.

Definition admin : Server.User := Server.mkUser 1 "admin".

Definition superadmin : Server.User := Server.mkUser 1 "super_admin".

Definition maple : Supplies.Supply :=
  Supplies.mkSupply 1 "Maple Plywood" "4x8" 10 "1-Sheet Materials" "Bay 1".

(** Popups whose fetched job shows material 5 as all pending, or with its
    first sheet cut. *)
Definition pop_pending : Popup.State := Popup.initial {[5 := pending_sheets 6]}.

Definition pop_cut : Popup.State :=
  Popup.initial {[5 := ["cut"; "pending"; "pending"; "pending"; "pending"; "pending"]]}.

(* ================================================================== *)
(** * Properties *)

(** ** Helper lemmas on status lists *)

Lemma pending_sheets_length (n : Z) :
  0 <= n -> Z.of_nat (length (pending_sheets n)) = n.
Proof. intros Hn. unfold pending_sheets. rewrite repeat_length. lia. Qed.

Lemma count_cut_pending (n : Z) : count_cut (pending_sheets n) = 0.
Proof.
  unfold count_cut, pending_sheets. induction (Z.to_nat n) as [|k IH]; [done|].
  simpl. rewrite filter_cons_False; [done|]. unfold is_cut. simpl. discriminate.
Qed.

Lemma count_cut_app (l1 l2 : list string) :
  count_cut (l1 ++ l2) = count_cut l1 + count_cut l2.
Proof. unfold count_cut. rewrite filter_app, length_app. lia. Qed.

Lemma out_of_range_false (idx bound : Z) :
  out_of_range idx bound = false -> 0 <= idx < bound.
Proof. unfold out_of_range. intros H. apply orb_false_iff in H as [H1 H2]. lia. Qed.

Lemma delete_length_in (l : list string) (idx : Z) :
  0 <= idx < Z.of_nat (length l) ->
  Z.of_nat (length (delete (Z.to_nat idx) l)) = Z.of_nat (length l) - 1.
Proof.
  intros H. rewrite length_delete; [lia|]. apply lookup_lt_is_Some. lia.
Qed.

(** Case split on the lookups and guards of a storage operation. *)
Ltac split_storage :=
  repeat match goal with
  | H : context [match ?x with _ => _ end] |- _ =>
      lazymatch x with
      | context [match _ with _ => _ end] => fail
      | _ => let E := fresh "E" in destruct x eqn:E
      end
  | H : Ok _ = Ok _ |- _ => injection H as <-
  | H : Err _ = Ok _ |- _ => discriminate H
  end.

(** C1: every mutating storage operation (material creation, add-sheets,
    delete-sheet, and the status and recut operations) keeps
    [length sheetStatuses = totalSheets] for every material of the store. *)
Theorem sheetStatuses_length_preserved (st st' : Store) (op : Storage.Op) :
  lengths_ok st -> Storage.run st op = Ok st' -> lengths_ok st'.
Proof.
  unfold lengths_ok. intros Hinv Hrun.
  destruct op; simpl in Hrun;
    unfold Storage.createMaterial, Storage.updateSheetStatus,
      Storage.updateRecutSheetStatus, Storage.addRecutEntry,
      Storage.addSheetsToMaterial, Storage.deleteSheet in Hrun;
    split_storage; simpl; try done.
  - apply map_Forall_insert_2; [|done]. unfold material_len_ok; simpl.
    apply pending_sheets_length. apply Z.ltb_ge in E. lia.
  - apply map_Forall_insert_2; [|done]. unfold material_len_ok; simpl.
    rewrite length_insert. by apply (Hinv id).
  - apply map_Forall_insert_2; [|done]. unfold material_len_ok; simpl.
    rewrite length_app, Nat2Z.inj_add, pending_sheets_length; [|apply Z.ltb_ge in E0; lia].
    rewrite (Hinv materialId t E). lia.
  - apply map_Forall_insert_2; [|done]. unfold material_len_ok; simpl.
    pose proof (Hinv materialId t E) as Ht. unfold material_len_ok in Ht.
    apply out_of_range_false in E0. rewrite delete_length_in; lia.
Qed.

(** C2: every mutating storage operation keeps, for every material and every
    recut entry, [completedSheets] equal to the number of 'cut' entries of
    its [sheetStatuses]. *)
Theorem completedSheets_count_preserved (st st' : Store) (op : Storage.Op) :
  counts_ok st -> Storage.run st op = Ok st' -> counts_ok st'.
Proof.
  unfold counts_ok. intros [Hm Hr] Hrun.
  destruct op; simpl in Hrun;
    unfold Storage.createMaterial, Storage.updateSheetStatus,
      Storage.updateRecutSheetStatus, Storage.addRecutEntry,
      Storage.addSheetsToMaterial, Storage.deleteSheet in Hrun;
    split_storage; simpl; split; try done;
    try (apply map_Forall_insert_2; [simpl|done]);
    rewrite ?count_cut_pending; try done.
  rewrite count_cut_app, count_cut_pending, (Hm materialId t E). lia.
Qed.

(** ** Concrete runs (spec section 8 scenarios) *)

Example set_index2_cut :
  match Storage.updateSheetStatus store0 5 2 "cut" with
  | Ok s => fmap (fun m => (JobMaterial.sheetStatuses m, JobMaterial.completedSheets m))
              (jobMaterials s !! 5)
  | Err _ => None
  end = Some (["pending"; "pending"; "cut"; "pending"; "pending"; "pending"], 1).
Proof. vm_compute. reflexivity. Qed.

Example add_three_sheets :
  match Storage.addSheetsToMaterial store0 5 3 false with
  | Ok s => fmap (fun m => (JobMaterial.totalSheets m, JobMaterial.sheetStatuses m))
              (jobMaterials s !! 5)
  | Err _ => None
  end = Some (9, pending_sheets 9).
Proof. vm_compute. reflexivity. Qed.

Example delete_out_of_range : Storage.deleteSheet store0 5 6 = Err OutOfRange.
Proof. reflexivity. Qed.

(** ** Helper lemmas on the popup *)

Lemma optimistic_of_set_eq (p : Popup.State) (o : gmap Z (gmap Z string)) (m i : Z) (s : string) :
  Popup.optimisticSheetStatuses p = Popup.set_optimistic o m i s ->
  Popup.optimistic_of p m i = Some s.
Proof.
  intros Ho. unfold Popup.optimistic_of. rewrite Ho. unfold Popup.set_optimistic.
  rewrite lookup_insert_eq. simpl. by rewrite lookup_insert_eq.
Qed.

Lemma handleSheetClick_displayed (p : Popup.State) (m i : Z) :
  Popup.handleSheetClick p m i (Popup.displayed p m i) =
  Popup.mutate p m i (newStatus_of (Popup.displayed p m i)).
Proof.
  unfold Popup.handleSheetClick, Popup.displayed.
  by destruct (Popup.optimistic_of p m i).
Qed.

Lemma click_displayed (p : Popup.State) (m i : Z) :
  Popup.isPending p = false ->
  Popup.displayed (Popup.click p m i) m i = newStatus_of (Popup.displayed p m i).
Proof.
  intros Hp. unfold Popup.click. rewrite Hp, handleSheetClick_displayed.
  unfold Popup.displayed at 1. by erewrite optimistic_of_set_eq.
Qed.

(** ** Claims *)

(** C3: for an authenticated caller, every failure of the storage update
    behind PUT /api/materials/:id/sheet-status (and behind
    POST /api/materials/:materialId/sheets/:sheetIndex), whatever its kind,
    gives the same response, HTTP 500 "Failed to update sheet status", with
    the state unchanged and nothing broadcast. *)
Theorem sheet_status_failures_uniform (st : Server.State) (u : Server.User)
  (id sheetIndex : Z) (status : string) (e : StorageError) :
  Storage.updateSheetStatus (Server.db st) id sheetIndex status = Err e ->
  Server.handle st (Some u) (Server.PutMaterialSheetStatus id sheetIndex status)
    = (st, Server.mkResp 500 (Server.Message "Failed to update sheet status"))
  /\ Server.handle st (Some u) (Server.PostMaterialSheet id sheetIndex status)
    = (st, Server.mkResp 500 (Server.Message "Failed to update sheet status")).
Proof. intros He. unfold Server.handle, Server.requireAuth, Server.handler. simpl. by rewrite He. Qed.

Lemma sheet_status_failures_uniform_witness :
  Server.handle srv0 (Some admin) (Server.PutMaterialSheetStatus 9 0 "cut")
    = (srv0, Server.mkResp 500 (Server.Message "Failed to update sheet status"))
  /\ Server.handle srv0 (Some admin) (Server.PostMaterialSheet 9 0 "cut")
    = (srv0, Server.mkResp 500 (Server.Message "Failed to update sheet status")).
Proof. apply (sheet_status_failures_uniform srv0 admin 9 0 "cut" NotFound). reflexivity. Defined.

(** C3 counterexample: an absent material (NotFound), an index past the
    end (OutOfRange) and a status outside the three values
    (InvalidArgument) all get the very same response. *)
Lemma sheet_status_failures_indistinguishable :
  Storage.updateSheetStatus store0 9 0 "cut" = Err NotFound
  /\ Storage.updateSheetStatus store0 5 7 "cut" = Err OutOfRange
  /\ Storage.updateSheetStatus store0 5 0 "done" = Err InvalidArgument
  /\ snd (Server.handle srv0 (Some admin) (Server.PutMaterialSheetStatus 9 0 "cut"))
     = snd (Server.handle srv0 (Some admin) (Server.PutMaterialSheetStatus 5 7 "cut"))
  /\ snd (Server.handle srv0 (Some admin) (Server.PutMaterialSheetStatus 5 7 "cut"))
     = snd (Server.handle srv0 (Some admin) (Server.PutMaterialSheetStatus 5 0 "done")).
Proof. vm_compute. repeat split. Qed.

(** C4: at the failing input, PUT /api/materials/5/sheet-status with
    {sheetIndex: 2, status: "cut"} delivers one sheet_status_updated event to
    the open viewer 1 and nothing to the closed viewer 2, but its payload is
    {id, sheetIndex, status}: it has no materialId field, which the sibling
    route POST /api/materials/5/sheets/2 does send. *)
Theorem put_sheet_status_payload_lacks_materialId :
  Server.sent <$> Server.sockets
      (fst (Server.handle srv0 (Some admin) (Server.PutMaterialSheetStatus 5 2 "cut"))) !! 1
    = Some [Server.mkEvent "sheet_status_updated"
              [("id", Server.JNum 5); ("sheetIndex", Server.JNum 2);
               ("status", Server.JStr "cut")]]
  /\ Server.sent <$> Server.sockets
      (fst (Server.handle srv0 (Some admin) (Server.PutMaterialSheetStatus 5 2 "cut"))) !! 2
    = Some []
  /\ Server.sent <$> Server.sockets
      (fst (Server.handle srv0 (Some admin) (Server.PostMaterialSheet 5 2 "cut"))) !! 1
    = Some [Server.mkEvent "sheet_status_updated"
              [("materialId", Server.JNum 5); ("sheetIndex", Server.JNum 2);
               ("status", Server.JStr "cut")]].
Proof. vm_compute. repeat split. Qed.

(** Once a click on a sheet has been sent and has succeeded, and the job
    record has been refetched (as [fetched], whatever it holds), the sheet
    still shows the optimistic value the click wrote: onSuccess never clears
    the optimistic entry, so the refetched server value never reaches that
    cell. *)
Theorem success_refetch_keeps_optimistic (p : Popup.State) (m i : Z)
  (fetched : gmap Z (list string)) :
  Popup.isPending p = false ->
  Popup.displayed (Popup.settle_success (Popup.click p m i) fetched) m i
    = newStatus_of (Popup.displayed p m i).
Proof.
  intros Hp. unfold Popup.displayed at 1.
  rewrite (optimistic_of_set_eq _ (Popup.optimisticSheetStatuses p) m i
             (newStatus_of (Popup.displayed p m i))); [reflexivity|].
  unfold Popup.click. rewrite Hp, handleSheetClick_displayed. reflexivity.
Qed.

Lemma success_refetch_keeps_optimistic_witness :
  Popup.displayed
    (Popup.settle_success (Popup.click pop_pending 5 0) {[5 := ["skip"]]}) 5 0
  = newStatus_of (Popup.displayed pop_pending 5 0).
Proof. apply success_refetch_keeps_optimistic. reflexivity. Defined.

(** C5: at the failing input, the click on sheet 0 of material 5 (all
    pending) sends 'cut' and succeeds; the refetched job record holds 'skip'
    for that sheet (another viewer's later write), yet the popup keeps
    showing 'cut' instead of the server's value: the optimistic entry still
    shadows the refetched record. *)
Theorem success_refetch_shadowed :
  let p := Popup.settle_success (Popup.click pop_pending 5 0)
             {[5 := ["skip"; "pending"; "pending"; "pending"; "pending"; "pending"]]} in
  Popup.serverStatus p 5 0 = "skip" /\ Popup.displayed p 5 0 = "cut".
Proof. vm_compute. split; reflexivity. Qed.

(** C6: at the failing input, sheet 0 of material 5 shows the server value
    'cut' with no optimistic entry; the click sends 'skip', the request
    fails, and the popup then shows 'pending', not the pre-click 'cut'
    (an error toast is shown). *)
Theorem failed_click_rolls_back_to_pending :
  Popup.displayed pop_cut 5 0 = "cut"
  /\ Popup.requests (Popup.click pop_cut 5 0) = [(5, 0, "skip")]
  /\ Popup.displayed (Popup.settle_error (Popup.click pop_cut 5 0)) 5 0 = "pending"
  /\ Popup.toasts (Popup.settle_error (Popup.click pop_cut 5 0)) = ["Error"].
Proof. vm_compute. repeat split. Qed.

(** C7: a click while a sheet-status request is in flight hits a disabled
    button and changes nothing; a click otherwise computes the next status
    from the displayed value (the optimistic entry if present, else the
    server value) and issues exactly one request with it. *)
Theorem click_request_or_disabled (p : Popup.State) (m i : Z) :
  (Popup.isPending p = true -> Popup.click p m i = p)
  /\ (Popup.isPending p = false ->
      Popup.requests (Popup.click p m i)
        = (Popup.requests p ++ [(m, i, newStatus_of (Popup.displayed p m i))])%list
      /\ Popup.displayed (Popup.click p m i) m i = newStatus_of (Popup.displayed p m i)).
Proof.
  split.
  - intros Hp. unfold Popup.click. by rewrite Hp.
  - intros Hp. split; [|by apply click_displayed].
    unfold Popup.click. rewrite Hp, handleSheetClick_displayed. reflexivity.
Qed.

Lemma click_request_or_disabled_witness :
  Popup.click (Popup.click pop_pending 5 0) 5 0 = Popup.click pop_pending 5 0
  /\ Popup.requests (Popup.click pop_pending 5 0) = [(5, 0, "cut")].
Proof.
  split.
  - apply (click_request_or_disabled (Popup.click pop_pending 5 0) 5 0). reflexivity.
  - apply (click_request_or_disabled pop_pending 5 0). reflexivity.
Defined.

(** C7 counterexample: two clicks on the same sheet, the second while the
    first request is still in flight, issue one request only. *)
Lemma second_click_in_flight_suppressed :
  Popup.requests (Popup.click (Popup.click pop_pending 5 0) 5 0) = [(5, 0, "cut")].
Proof. vm_compute. reflexivity. Qed.

(** C8: the cycle of handleSheetClick and handleRecutSheetClick goes
    pending -> cut -> skip -> pending, so three steps from 'pending' return
    to 'pending'. *)
Theorem status_cycle_three :
  newStatus_of "pending" = "cut"
  /\ newStatus_of "cut" = "skip"
  /\ newStatus_of "skip" = "pending"
  /\ newStatus_of (newStatus_of (newStatus_of "pending")) = "pending".
Proof. repeat split. Qed.

(** C9: an add-sheets or add-recut request whose count is absent (undefined
    or null) or below 1 leaves the state unchanged (nothing stored, nothing
    broadcast); it is answered 400 when the session is authenticated, and
    401 by requireAuth when it is not. *)
Theorem add_count_rejected (st : Server.State) (user : option Server.User)
  (materialId : Z) (isRecut : bool) (reason : option string) (c : Server.CountArg) :
  (c = Server.CUndefined \/ c = Server.CNull \/ exists n, c = Server.CNum n /\ n < 1) ->
  let expected := match user with Some _ => 400 | None => 401 end in
  fst (Server.handle st user (Server.PostAddSheets materialId c isRecut)) = st
  /\ Server.code (snd (Server.handle st user (Server.PostAddSheets materialId c isRecut)))
     = expected
  /\ fst (Server.handle st user (Server.PostRecuts materialId c reason)) = st
  /\ Server.code (snd (Server.handle st user (Server.PostRecuts materialId c reason)))
     = expected.
Proof.
  intros Hc expected. subst expected.
  assert (Hg : Server.js_not c || Server.js_lt1 c = true).
  { destruct Hc as [->|[->|[n [-> Hn]]]]; try reflexivity.
    simpl. apply orb_true_iff. right. apply Z.ltb_lt. exact Hn. }
  unfold Server.handle, Server.requireAuth, Server.handler; simpl.
  destruct user; rewrite ?Hg; repeat split.
Qed.

Lemma add_count_rejected_witness :
  fst (Server.handle srv0 (Some admin) (Server.PostAddSheets 5 (Server.CNum 0) false)) = srv0
  /\ Server.code (snd (Server.handle srv0 (Some admin)
                          (Server.PostAddSheets 5 (Server.CNum 0) false))) = 400
  /\ fst (Server.handle srv0 (Some admin) (Server.PostRecuts 5 (Server.CNum 0) None)) = srv0
  /\ Server.code (snd (Server.handle srv0 (Some admin)
                          (Server.PostRecuts 5 (Server.CNum 0) None))) = 400.
Proof.
  apply (add_count_rejected srv0 (Some admin) 5 false None (Server.CNum 0)).
  right. right. exists 0. split; [reflexivity|lia].
Defined.

(** C9 counterexample: without a session, add-sheets with
    [additionalSheets = 0] is answered 401, not 400. *)
Lemma add_zero_sheets_unauthenticated :
  Server.code (snd (Server.handle srv0 None (Server.PostAddSheets 5 (Server.CNum 0) false)))
  = 401.
Proof. reflexivity. Qed.

(** C10: every status-mutation route (PUT and POST sheet status, PUT recut
    sheet status, add-sheets, add-recut, delete-sheet) answers a request
    without a session user with 401 and leaves the state unchanged, while
    GET /api/materials/:id/recuts answers the same way with or without a
    session. *)
Theorem mutations_require_session (st : Server.State) (req : Server.Request) :
  Server.is_status_mutation req = true ->
  Server.handle st None req
    = (st, Server.mkResp 401 (Server.Message "Authentication required"))
  /\ (forall (st' : Server.State) (user : option Server.User) (materialId : Z),
        Server.handle st' user (Server.GetRecuts materialId)
        = (st', Server.mkResp 200
                  (Server.Recuts (Storage.getRecutEntries (Server.db st') materialId)))).
Proof.
  intros Hm. split.
  - destruct req; try discriminate Hm; reflexivity.
  - reflexivity.
Qed.

Lemma mutations_require_session_witness :
  Server.handle srv0 None (Server.DeleteSheet 5 0)
    = (srv0, Server.mkResp 401 (Server.Message "Authentication required"))
  /\ (forall (st' : Server.State) (user : option Server.User) (materialId : Z),
        Server.handle st' user (Server.GetRecuts materialId)
        = (st', Server.mkResp 200
                  (Server.Recuts (Storage.getRecutEntries (Server.db st') materialId)))).
Proof. apply (mutations_require_session srv0 (Server.DeleteSheet 5 0)). reflexivity. Defined.


Lemma sheetStatuses_length_preserved_witness : lengths_ok store_added.
Proof.
  apply (sheetStatuses_length_preserved store0 store_added (Storage.OpAddSheets 5 3 false)).
  - unfold lengths_ok, store0. simpl. apply map_Forall_singleton. reflexivity.
  - vm_compute. reflexivity.
Defined.

Lemma completedSheets_count_preserved_witness : counts_ok store_added.
Proof.
  apply (completedSheets_count_preserved store0 store_added (Storage.OpAddSheets 5 3 false)).
  - unfold counts_ok, store0. simpl. split.
    + apply map_Forall_singleton. reflexivity.
    + apply map_Forall_empty.
  - vm_compute. reflexivity.
Defined.

(* ================================================================== *)
(** * Further properties of the code *)

(** ** toLowerCase *)

Lemma ascii_lower_idem (c : Ascii.ascii) : ascii_lower (ascii_lower c) = ascii_lower c.
Proof. destruct c as [[] [] [] [] [] [] [] []]; reflexivity. Qed.

Lemma toLowerCase_idem (s : string) : toLowerCase (toLowerCase s) = toLowerCase s.
Proof. induction s as [|c r IH]; simpl; [done|]. by rewrite ascii_lower_idem, IH. Qed.

Lemma toLowerCase_length (s : string) : String.length (toLowerCase s) = String.length s.
Proof. induction s as [|c r IH]; simpl; [done|]. by rewrite IH. Qed.

Lemma toLowerCase_empty (s : string) : toLowerCase s = "" -> s = "".
Proof. destruct s; simpl; [done|discriminate]. Qed.

Lemma truthy_str (s : string) : Users.truthy (Users.SStr s) = true -> s <> "".
Proof. simpl. intros H ->. discriminate. Qed.

(** ** User management routes *)

(** POST /api/setup creates a user only when the user table is empty, and
    then exactly one, a super_admin whose stored username is non-empty and
    already lower case. *)
Theorem setup_only_first_super_admin (existing : list Users.UserRow)
  (hash : string -> string) (username password : Users.StrArg) :
  (existing <> [] ->
     fst (Users.setup existing hash username password) = []
     /\ Users.ucode (snd (Users.setup existing hash username password)) = 400)
  /\ (length (fst (Users.setup existing hash username password)) <= 1)%nat
  /\ (forall nu, In (Users.CreateUser nu) (fst (Users.setup existing hash username password)) ->
        existing = [] /\ Users.new_role nu = "super_admin"
        /\ toLowerCase (Users.new_username nu) = Users.new_username nu
        /\ Users.new_username nu <> "").
Proof.
  unfold Users.setup. destruct existing as [|e es]; simpl.
  2: { repeat split; try done; try lia; by intros ? []. }
  assert (Hnil : ([] : list Users.UserRow) <> [] -> False) by (intros H; by apply H).
  destruct username as [| |un]; simpl;
    [repeat split; try lia; try (by intros ? []); by intros []%Hnil..|].
  destruct (String.eqb un "") eqn:Hu; simpl;
    [repeat split; try lia; try (by intros ? []); by intros []%Hnil|].
  destruct password as [| |pw]; simpl;
    [repeat split; try lia; try (by intros ? []); by intros []%Hnil..|].
  destruct (String.eqb pw "") eqn:Hp; simpl;
    [repeat split; try lia; try (by intros ? []); by intros []%Hnil|].
  split; [intros H; exfalso; by apply Hnil|]. split; [simpl; lia|].
  intros nu [Hnu|[]]. injection Hnu as <-. simpl. repeat split.
  - apply toLowerCase_idem.
  - intros He. apply toLowerCase_empty in He. subst un. discriminate.
Qed.

Lemma setup_only_first_super_admin_witness :
  [] = @nil Users.UserRow /\ Users.new_role (Users.mkNewUser "admin" None "pw" "super_admin") = "super_admin"
  /\ toLowerCase "admin" = "admin" /\ "admin" <> "".
Proof.
  apply (proj2 (proj2 (setup_only_first_super_admin [] (fun p => p)
                         (Users.SStr "Admin") (Users.SStr "pw")))).
  simpl. left. reflexivity.
Defined.

(** DELETE /api/users/:id issues storage.deleteUser only for a super_admin
    session and never for the session's own id. *)
Theorem deleteUser_never_self (user : option Server.User) (userId k : Z) :
  In (Users.DeleteUser k) (fst (Users.deleteUser user userId)) ->
  exists u, user = Some u /\ Server.role u = "super_admin" /\ k = userId
            /\ k <> Server.uid u.
Proof.
  unfold Users.deleteUser, Users.requireSuperAdmin.
  destruct user as [u|]; simpl; [|intros []].
  destruct (String.eqb (Server.role u) "super_admin") eqn:Hr; simpl; [|intros []].
  destruct (userId =? Server.uid u) eqn:Hid; simpl; [intros []|].
  intros [H|[]]. injection H as <-. exists u.
  apply String.eqb_eq in Hr. apply Z.eqb_neq in Hid. auto.
Qed.

Lemma deleteUser_never_self_witness :
  exists u, Some superadmin = Some u /\ Server.role u = "super_admin" /\ 7 = 7 /\ 7 <> Server.uid u.
Proof. apply (deleteUser_never_self (Some superadmin) 7 7). simpl. left. reflexivity. Defined.

Lemma valid_role_in (a : Users.StrArg) :
  Users.valid_role a = true -> exists r, a = Users.SStr r /\ In r ["user"; "admin"; "super_admin"].
Proof.
  unfold Users.valid_role. destruct a as [| |r]; try discriminate.
  intros H. apply existsb_exists in H as [x [Hx Heq]]. apply String.eqb_eq in Heq.
  subst x. eauto.
Qed.

(** POST /api/users issues storage.createUser only for a super_admin
    session, with the role given in the request (one of user, admin,
    super_admin: the 'admin' fallback is never used) and a non-empty, lower
    case username. *)
Theorem createUser_call_valid (user : option Server.User)
  (lookup : string -> option Users.UserRow) (hash : string -> string)
  (username password : Users.StrArg) (email : option string) (role : Users.StrArg)
  (nu : Users.NewUser) :
  In (Users.CreateUser nu) (fst (Users.createUser user lookup hash username password email role)) ->
  (exists u, user = Some u /\ Server.role u = "super_admin")
  /\ (exists r, role = Users.SStr r /\ Users.new_role nu = r
                /\ In r ["user"; "admin"; "super_admin"])
  /\ toLowerCase (Users.new_username nu) = Users.new_username nu
  /\ Users.new_username nu <> "".
Proof.
  unfold Users.createUser, Users.requireSuperAdmin.
  destruct user as [u|]; simpl; [|intros []].
  destruct (String.eqb (Server.role u) "super_admin") eqn:Hr; simpl; [|intros []].
  destruct username as [| |un]; simpl; try (intros []).
  destruct password as [| |pw]; simpl; try (intros []).
  destruct (String.eqb un "") eqn:Hu; simpl; [intros []|].
  destruct (String.eqb pw "") eqn:Hp; simpl; [intros []|].
  destruct (Users.valid_role role) eqn:Hv; simpl; [|intros []].
  destruct (lookup un); simpl; [intros []|].
  intros [H|[]]. injection H as <-. simpl.
  apply valid_role_in in Hv as [r [-> Hin]].
  split; [exists u; split; [done|by apply String.eqb_eq]|].
  split; [|split; [apply toLowerCase_idem|]].
  - exists r. repeat split; [|done].
    destruct (String.eqb r "") eqn:Hre; [|done].
    apply String.eqb_eq in Hre. subst r. simpl in Hin. naive_solver.
  - intros He. apply toLowerCase_empty in He. subst un. discriminate.
Qed.

Lemma createUser_call_valid_witness :
  (exists u, Some superadmin = Some u /\ Server.role u = "super_admin")
  /\ (exists r, Users.SStr "admin" = Users.SStr r
                /\ Users.new_role (Users.mkNewUser "bob" None "h" "admin") = r
                /\ In r ["user"; "admin"; "super_admin"])
  /\ toLowerCase "bob" = "bob" /\ "bob" <> "".
Proof.
  apply (createUser_call_valid (Some superadmin) (fun _ => None) (fun _ => "h")
           (Users.SStr "Bob") (Users.SStr "pw") None (Users.SStr "admin")
           (Users.mkNewUser "bob" None "h" "admin")).
  simpl. left. reflexivity.
Defined.

(** The admin page enables its users query (and Users tab) only for a
    session whose GET /api/users is refused: the response is 403 with the
    message "Super admin access required" and no user list, whatever users
    are stored. *)
Theorem users_query_only_when_forbidden (user : option Server.User)
  (allUsers : list Users.UserRow) :
  usersQueryEnabled user = true ->
  snd (Users.getUsers user allUsers)
  = Users.mkUResp 403 (Users.UMessage "Super admin access required").
Proof.
  destruct user as [u|]; simpl; [|discriminate]. intros H.
  apply String.eqb_eq in H. unfold Users.getUsers, Users.requireSuperAdmin.
  rewrite H. reflexivity.
Qed.

Lemma users_query_only_when_forbidden_witness :
  snd (Users.getUsers (Some (Server.mkUser 2 "admin"))
         [Users.mkUserRow 3 "alice" "h" None "user"])
  = Users.mkUResp 403 (Users.UMessage "Super admin access required").
Proof. apply users_query_only_when_forbidden. reflexivity. Defined.

(** POST /api/login is case-insensitive in the username: two usernames with
    the same lower-case form get the same outcome. *)
Theorem login_case_insensitive (lookup : string -> option Users.UserRow)
  (compare : string -> string -> bool) (u1 u2 : string) (pw : Users.StrArg) :
  toLowerCase u1 = toLowerCase u2 ->
  Users.login lookup compare (Users.SStr u1) pw = Users.login lookup compare (Users.SStr u2) pw.
Proof.
  intros H. unfold Users.login. destruct pw as [| |p]; [done|done|].
  assert (Hl : String.length u1 = String.length u2).
  { rewrite <- (toLowerCase_length u1), <- (toLowerCase_length u2). by rewrite H. }
  by rewrite Hl, H.
Qed.

Lemma login_case_insensitive_witness :
  Users.login (fun n => if String.eqb n "alice"
                        then Some (Users.mkUserRow 3 "alice" "h" None "user") else None)
    String.eqb (Users.SStr "ALICE") (Users.SStr "h")
  = Users.login (fun n => if String.eqb n "alice"
                          then Some (Users.mkUserRow 3 "alice" "h" None "user") else None)
      String.eqb (Users.SStr "alice") (Users.SStr "h").
Proof. apply login_case_insensitive. reflexivity. Defined.

(** POST /api/login stores a user in the session only when the body holds
    two strings, the lower-cased username finds that user and the password
    matches its hash. *)
Theorem login_session_requires_password (lookup : string -> option Users.UserRow)
  (compare : string -> string -> bool) (username password : Users.StrArg)
  (u : Users.UserRow) :
  fst (Users.login lookup compare username password) = Some u ->
  exists n p, username = Users.SStr n /\ password = Users.SStr p
              /\ lookup (toLowerCase n) = Some u /\ compare p (Users.password u) = true.
Proof.
  unfold Users.login. destruct username as [| |n], password as [| |p]; simpl;
    try discriminate.
  destruct ((String.length n =? 0)%nat || (String.length p =? 0)%nat); simpl; [discriminate|].
  destruct (lookup (toLowerCase n)) as [v|] eqn:Hl; simpl; [|discriminate].
  destruct (compare p (Users.password v)) eqn:Hc; simpl; [|discriminate].
  intros H. injection H as <-. eauto 6.
Qed.

Lemma login_session_requires_password_witness :
  exists n p, Users.SStr "Alice" = Users.SStr n /\ Users.SStr "h" = Users.SStr p
    /\ (fun s => if String.eqb s "alice"
                 then Some (Users.mkUserRow 3 "alice" "h" None "user") else None)
         (toLowerCase n) = Some (Users.mkUserRow 3 "alice" "h" None "user")
    /\ String.eqb p (Users.password (Users.mkUserRow 3 "alice" "h" None "user")) = true.
Proof.
  apply (login_session_requires_password
           (fun s => if String.eqb s "alice"
                     then Some (Users.mkUserRow 3 "alice" "h" None "user") else None)
           String.eqb (Users.SStr "Alice") (Users.SStr "h")).
  reflexivity.
Defined.

(** PUT /api/users/:id issues storage.updateUser only for a super_admin
    session and for the id of the route; a role it writes is one of user,
    admin, super_admin; a username it writes is lower case and not held by
    another user; it never writes an empty email (an empty string is written
    as null). *)
Theorem updateUser_call_valid (user : option Server.User)
  (lookup : string -> option Users.UserRow) (hash : string -> string) (userId : Z)
  (username email password role : Users.StrArg) (k : Z) (d : Users.UpdateData) :
  In (Users.UpdateUser k d)
     (fst (Users.updateUser user lookup hash userId username email password role)) ->
  (exists u, user = Some u /\ Server.role u = "super_admin")
  /\ k = userId
  /\ (forall r, Users.upd_role d = Some r -> In r ["user"; "admin"; "super_admin"])
  /\ (forall n, Users.upd_username d = Some n ->
        toLowerCase n = n /\ forall ex, lookup n = Some ex -> Users.id ex = userId)
  /\ Users.upd_email d <> Some (Some "").
Proof.
  unfold Users.updateUser, Users.requireSuperAdmin.
  destruct user as [u|]; simpl; [|intros []].
  destruct (String.eqb (Server.role u) "super_admin") eqn:Hr; simpl; [|intros []].
  apply String.eqb_eq in Hr.
  destruct (Users.truthy role && negb (Users.valid_role role)) eqn:Hv; simpl; [intros []|].
  assert (Hrole : forall r, (match role with
                             | Users.SStr r => if Users.truthy role then Some r else None
                             | _ => None end) = Some r -> In r ["user"; "admin"; "super_admin"]).
  { intros r. destruct role as [| |r']; try discriminate.
    destruct (Users.truthy (Users.SStr r')) eqn:Ht; [|discriminate].
    intros Hs. injection Hs as <-. cbn [andb] in Hv.
    apply negb_false_iff, valid_role_in in Hv as [? [Heq Hin]].
    by injection Heq as <-. }
  assert (Hemail : (match email with
                    | Users.SUndefined => None
                    | Users.SNull => Some None
                    | Users.SStr e => Some (if String.eqb e "" then None else Some e)
                    end) <> Some (Some "")).
  { destruct email as [| |e]; try discriminate.
    destruct (String.eqb e "") eqn:He; [discriminate|].
    intros Hs. injection Hs as ->. discriminate. }
  destruct username as [| |un]; simpl.
  1,2: intros [H|[]]; injection H as <- <-; simpl;
       split; [eauto|split; [done|split; [exact Hrole|split; [discriminate|exact Hemail]]]].
  destruct (negb (String.eqb un "")); simpl.
  - destruct (lookup (toLowerCase un)) as [ex|] eqn:Hl; simpl.
    + destruct (Users.id ex =? userId) eqn:Hid; simpl; [|intros []].
      intros [H|[]]; injection H as <- <-; simpl.
      split; [eauto|split; [done|split; [exact Hrole|split; [|exact Hemail]]]].
      intros n Hn. injection Hn as <-. split; [apply toLowerCase_idem|].
      intros ex' Hex. rewrite Hl in Hex. injection Hex as <-. by apply Z.eqb_eq.
    + intros [H|[]]; injection H as <- <-; simpl.
      split; [eauto|split; [done|split; [exact Hrole|split; [|exact Hemail]]]].
      intros n Hn. injection Hn as <-. split; [apply toLowerCase_idem|].
      intros ex' Hex. rewrite Hl in Hex. discriminate.
  - intros [H|[]]; injection H as <- <-; simpl.
    split; [eauto|split; [done|split; [exact Hrole|split; [discriminate|exact Hemail]]]].
Qed.

Lemma updateUser_call_valid_witness :
  (exists u, Some superadmin = Some u /\ Server.role u = "super_admin")
  /\ 4 = 4
  /\ (forall r, Some "admin" = Some r -> In r ["user"; "admin"; "super_admin"])
  /\ (forall n, Some "carol" = Some n ->
        toLowerCase n = n /\ forall ex, (fun _ : string => @None Users.UserRow) n = Some ex
                                        -> Users.id ex = 4)
  /\ Some (@None string) <> Some (Some "").
Proof.
  apply (updateUser_call_valid (Some superadmin) (fun _ => None) (fun _ => "h") 4
           (Users.SStr "Carol") (Users.SStr "") Users.SUndefined (Users.SStr "admin") 4
           (Users.mkUpdateData (Some "carol") (Some None) None (Some "admin"))).
  simpl. left. reflexivity.
Defined.

(** *** The real-time channel *)

Lemma send_if_open_lookup_ne (ev : Server.Event) (w ws : Z) (m : gmap Z Server.Conn) :
  w <> ws -> Server.send_if_open ev w m !! ws = m !! ws.
Proof.
  intros Hne. unfold Server.send_if_open.
  destruct (m !! w) as [c|]; [|done].
  destruct (Server.ready_open (Server.readyState c)); [|done].
  by rewrite lookup_insert_ne.
Qed.

Lemma send_if_open_lookup_eq (ev : Server.Event) (ws : Z) (m : gmap Z Server.Conn) :
  Server.send_if_open ev ws m !! ws =
  match m !! ws with
  | Some c => if Server.ready_open (Server.readyState c)
              then Some (Server.mkConn (Server.readyState c) (Server.sent c ++ [ev]))
              else Some c
  | None => None
  end.
Proof.
  unfold Server.send_if_open. destruct (m !! ws) as [c|] eqn:Hc; [|done].
  destruct (Server.ready_open (Server.readyState c)); [|done].
  by rewrite lookup_insert_eq.
Qed.

Lemma foldr_send_lookup (ev : Server.Event) (l : list Z) (m : gmap Z Server.Conn) (ws : Z) :
  NoDup l ->
  foldr (Server.send_if_open ev) m l !! ws =
  match m !! ws with
  | Some c => if bool_decide (ws ∈ l) && Server.ready_open (Server.readyState c)
              then Some (Server.mkConn (Server.readyState c) (Server.sent c ++ [ev]))
              else Some c
  | None => None
  end.
Proof.
  induction l as [|a l IH]; intros Hnd; simpl.
  - by destruct (m !! ws).
  - apply NoDup_cons in Hnd as [Ha Hnd].
    destruct (decide (a = ws)) as [->|Hne].
    + rewrite send_if_open_lookup_eq, IH by done.
      destruct (m !! ws) as [c|]; [|done].
      rewrite (bool_decide_false (ws ∈ l)) by done.
      rewrite bool_decide_true by set_solver. done.
    + rewrite send_if_open_lookup_ne, IH by done.
      destruct (m !! ws) as [c|]; [|done].
      replace (bool_decide (ws ∈ a :: l)) with (bool_decide (ws ∈ l)); [done|].
      apply bool_decide_ext. set_solver.
Qed.

(** broadcastToClients sends the event once to each socket that is in the
    clients set and OPEN, appending it to what that socket was sent; every
    other socket is left as it was. *)
Theorem broadcast_delivery (ev : Server.Event) (st : Server.State) (ws : Z) :
  Server.sockets (Server.broadcastToClients ev st) !! ws =
  match Server.sockets st !! ws with
  | Some c => if bool_decide (ws ∈ Server.clients st) && Server.ready_open (Server.readyState c)
              then Some (Server.mkConn (Server.readyState c) (Server.sent c ++ [ev]))
              else Some c
  | None => None
  end.
Proof.
  unfold Server.broadcastToClients, set_fold. simpl.
  rewrite foldr_send_lookup by apply NoDup_elements.
  destruct (Server.sockets st !! ws); [|done].
  replace (bool_decide (ws ∈ elements (Server.clients st)))
    with (bool_decide (ws ∈ Server.clients st)); [done|].
  apply bool_decide_ext. symmetry. apply elem_of_elements.
Qed.

Lemma broadcast_not_client (ev : Server.Event) (st : Server.State) (ws : Z) :
  ws ∉ Server.clients st ->
  Server.sockets (Server.broadcastToClients ev st) !! ws = Server.sockets st !! ws.
Proof.
  intros H. rewrite broadcast_delivery.
  destruct (Server.sockets st !! ws); [|done]. by rewrite bool_decide_false.
Qed.

(** A socket that has just connected receives the next broadcast, and only
    it: its sent list is exactly that event. *)
Theorem connect_then_broadcast (ev : Server.Event) (st : Server.State) (ws : Z) :
  Server.sockets (Server.broadcastToClients ev (Server.on_connection st ws)) !! ws
  = Some (Server.mkConn Server.OPEN [ev]).
Proof.
  rewrite broadcast_delivery. simpl. rewrite lookup_insert_eq.
  rewrite bool_decide_true by set_solver. done.
Qed.

(** Once a socket has closed, no broadcast reaches it. *)
Theorem closed_socket_gets_nothing (ev : Server.Event) (st : Server.State) (ws : Z) :
  Server.sockets (Server.broadcastToClients ev (Server.on_close st ws)) !! ws
  = Server.sockets (Server.on_close st ws) !! ws.
Proof. apply broadcast_not_client. simpl. set_solver. Qed.

Ltac route_cases :=
  unfold Server.handle, Server.requireAuth, Server.handler;
  repeat (case_match; simpl in *).

(** No route of the sheet/recut group reaches a socket outside the clients
    set, and none changes the clients set. *)
Theorem routes_only_reach_clients (st : Server.State) (user : option Server.User)
  (req : Server.Request) (ws : Z) :
  ws ∉ Server.clients st ->
  Server.sockets (fst (Server.handle st user req)) !! ws = Server.sockets st !! ws
  /\ Server.clients (fst (Server.handle st user req)) = Server.clients st.
Proof.
  intros Hws. route_cases; try done;
    split; try done; by apply (broadcast_not_client _ st).
Qed.

Lemma routes_only_reach_clients_witness :
  Server.sockets (fst (Server.handle srv0 (Some admin) (Server.DeleteSheet 5 0))) !! 2
  = Server.sockets srv0 !! 2
  /\ Server.clients (fst (Server.handle srv0 (Some admin) (Server.DeleteSheet 5 0)))
     = Server.clients srv0.
Proof. apply routes_only_reach_clients. vm_compute. set_solver. Defined.

(** A route that answers anything but 200 leaves the whole server state
    (store, sockets, clients) unchanged. *)
Theorem route_error_no_effect (st : Server.State) (user : option Server.User)
  (req : Server.Request) :
  Server.code (snd (Server.handle st user req)) <> 200 ->
  fst (Server.handle st user req) = st.
Proof. route_cases; done. Qed.

Lemma route_error_no_effect_witness :
  fst (Server.handle srv0 (Some admin) (Server.DeleteSheet 5 9)) = srv0.
Proof. apply route_error_no_effect. vm_compute. discriminate. Defined.

(** POST /api/materials/:id/add-sheets sends nothing on any socket, even
    when it changes the store. *)
Theorem add_sheets_never_broadcasts (st : Server.State) (user : option Server.User)
  (materialId : Z) (additionalSheets : Server.CountArg) (isRecut : bool) :
  Server.sockets (fst (Server.handle st user
                        (Server.PostAddSheets materialId additionalSheets isRecut)))
  = Server.sockets st.
Proof. route_cases; done. Qed.

(** *** The sheet grid of the job popup *)

Lemma set_optimistic_lookup_ne (o : gmap Z (gmap Z string)) (m i m' i' : Z) (s : string) :
  (m', i') <> (m, i) ->
  (Popup.set_optimistic o m i s !! m' ≫= fun row => row !! i')
  = (o !! m' ≫= fun row => row !! i').
Proof.
  intros Hne. unfold Popup.set_optimistic.
  destruct (decide (m' = m)) as [->|Hm].
  - rewrite lookup_insert_eq. simpl.
    rewrite lookup_insert_ne by congruence.
    destruct (o !! m); simpl; [done|]. by rewrite lookup_empty.
  - by rewrite lookup_insert_ne by done.
Qed.

(** A click on one sheet button changes what no other sheet button of the
    grid shows, of this material or of another one. *)
Theorem click_is_local (p : Popup.State) (m i m' i' : Z) :
  (m', i') <> (m, i) ->
  Popup.displayed (Popup.click p m i) m' i' = Popup.displayed p m' i'.
Proof.
  intros Hne. unfold Popup.click. destruct (Popup.isPending p); [done|].
  unfold Popup.handleSheetClick, Popup.mutate, Popup.displayed, Popup.serverStatus,
    Popup.optimistic_of; cbn [Popup.optimisticSheetStatuses Popup.job].
  by rewrite set_optimistic_lookup_ne.
Qed.

Lemma click_is_local_witness :
  Popup.displayed (Popup.click pop_cut 5 0) 5 1 = Popup.displayed pop_cut 5 1.
Proof. apply click_is_local. congruence. Defined.

(** When the request of a click fails, the popup shows
    [previousStatus || 'pending'] for that sheet: the optimistic value it had
    before the click, if any and non-empty, and 'pending' otherwise; an error
    toast is added. *)
Theorem failed_click_shows_previous_or_pending (p : Popup.State) (m i : Z) :
  Popup.isPending p = false -> Popup.inflight p = [] ->
  Popup.displayed (Popup.settle_error (Popup.click p m i)) m i
    = Popup.or_pending (Popup.optimistic_of p m i)
  /\ Popup.toasts (Popup.settle_error (Popup.click p m i)) = (Popup.toasts p ++ ["Error"])%list.
Proof.
  intros Hp Hi. unfold Popup.click. rewrite Hp.
  unfold Popup.handleSheetClick, Popup.mutate, Popup.settle_error.
  cbn [Popup.inflight]. rewrite Hi. cbn [app Popup.c_materialId Popup.c_sheetIndex
    Popup.previousStatus Popup.toasts Popup.optimisticSheetStatuses].
  split; [|done].
  unfold Popup.displayed. by erewrite optimistic_of_set_eq.
Qed.

Lemma failed_click_shows_previous_or_pending_witness :
  Popup.displayed (Popup.settle_error (Popup.click
      (Popup.mkState {[5 := {[0 := "cut"]}]} {[5 := pending_sheets 6]} false [] [] []) 5 0)) 5 0
    = Popup.or_pending (Popup.optimistic_of
        (Popup.mkState {[5 := {[0 := "cut"]}]} {[5 := pending_sheets 6]} false [] [] []) 5 0)
  /\ Popup.toasts (Popup.settle_error (Popup.click
      (Popup.mkState {[5 := {[0 := "cut"]}]} {[5 := pending_sheets 6]} false [] [] []) 5 0))
     = (Popup.toasts (Popup.mkState {[5 := {[0 := "cut"]}]} {[5 := pending_sheets 6]} false [] [] [])
       ++ ["Error"])%list.
Proof. apply failed_click_shows_previous_or_pending; reflexivity. Defined.



(** *** Supplies page filters *)

Lemma includes_spec (l : list string) (x : string) :
  Supplies.includes l x = true <-> In x l.
Proof.
  unfold Supplies.includes. rewrite existsb_exists. split.
  - intros [y [Hy Heq]]. apply String.eqb_eq in Heq. by subst.
  - intros Hx. exists x. split; [done|]. apply String.eqb_refl.
Qed.

Lemma In_toggle (prev : list string) (x y : string) :
  In y (Supplies.toggle prev x) <-> (if String.eqb y x then ~ In x prev else In y prev).
Proof.
  unfold Supplies.toggle.
  destruct (Supplies.includes prev x) eqn:Hx.
  - apply includes_spec in Hx. rewrite filter_In. cbv beta.
    destruct (String.eqb y x) eqn:Hyx.
    + apply String.eqb_eq in Hyx. subst y. naive_solver.
    + naive_solver.
  - assert (~ In x prev) by (intros H; apply includes_spec in H; congruence).
    rewrite in_app_iff. simpl.
    destruct (String.eqb y x) eqn:Hyx.
    + apply String.eqb_eq in Hyx. subst y. naive_solver.
    + apply String.eqb_neq in Hyx. naive_solver.
Qed.

(** toggleCategory / toggleLocation flip the membership of the clicked
    value and leave every other value as it was. *)
Theorem toggle_flips_only_target (prev : list string) (x y : string) :
  Supplies.includes (Supplies.toggle prev x) x = negb (Supplies.includes prev x)
  /\ (y <> x -> Supplies.includes (Supplies.toggle prev x) y = Supplies.includes prev y).
Proof.
  split.
  - destruct (Supplies.includes prev x) eqn:Hx; simpl.
    + apply not_true_iff_false. rewrite includes_spec, In_toggle, String.eqb_refl.
      intros H. apply H, includes_spec, Hx.
    + apply includes_spec, In_toggle. rewrite String.eqb_refl.
      intros H. apply includes_spec in H. congruence.
  - intros Hne. apply eq_bool_prop_intro. rewrite !Is_true_true, !includes_spec, In_toggle.
    apply String.eqb_neq in Hne. by rewrite Hne.
Qed.

(** Toggling a value that is not selected and toggling it again gives back
    the same selection list. *)
Theorem toggle_twice_roundtrip (prev : list string) (x : string) :
  ~ In x prev -> Supplies.toggle (Supplies.toggle prev x) x = prev.
Proof.
  intros Hx. unfold Supplies.toggle at 2.
  destruct (Supplies.includes prev x) eqn:Hi; [apply includes_spec in Hi; done|].
  unfold Supplies.toggle.
  rewrite (proj2 (includes_spec _ _)) by (apply in_app_iff; simpl; auto).
  rewrite List.filter_app. simpl. rewrite String.eqb_refl. simpl. rewrite app_nil_r.
  apply forallb_filter_id, forallb_forall. intros y Hy.
  destruct (String.eqb y x) eqn:E; [|done]. apply String.eqb_eq in E. by subst.
Qed.

Lemma toggle_twice_roundtrip_witness :
  Supplies.toggle (Supplies.toggle ["Bay 1"; "Bay 2"] "Rack 1") "Rack 1" = ["Bay 1"; "Bay 2"].
Proof. apply toggle_twice_roundtrip. simpl. intuition discriminate. Defined.

(** Toggling values of the checkbox list keeps the selection free of
    duplicates and inside the list of values. *)
Theorem toggle_keeps_selection_ok (prev universe : list string) (x : string) :
  List.NoDup prev -> incl prev universe -> In x universe ->
  List.NoDup (Supplies.toggle prev x) /\ incl (Supplies.toggle prev x) universe.
Proof.
  intros Hnd Hinc Hx. split.
  - unfold Supplies.toggle. destruct (Supplies.includes prev x) eqn:Hi.
    + by apply List.NoDup_filter.
    + apply NoDup_ListNoDup, NoDup_app. rewrite NoDup_ListNoDup.
      split; [done|]. split; [|apply NoDup_singleton].
      intros y Hy Hy'. apply list_elem_of_singleton in Hy'. subst y.
      apply list_elem_of_In, includes_spec in Hy. congruence.
  - intros y Hy. apply In_toggle in Hy.
    destruct (String.eqb y x) eqn:E.
    + apply String.eqb_eq in E. by subst.
    + by apply Hinc.
Qed.

Lemma toggle_keeps_selection_ok_witness :
  List.NoDup (Supplies.toggle ["1-Sheet Materials"] "2-Edgebandings")
  /\ incl (Supplies.toggle ["1-Sheet Materials"] "2-Edgebandings") Supplies.categories.
Proof.
  apply toggle_keeps_selection_ok.
  - repeat constructor. intros [].
  - intros y [<-|[]]. simpl. auto.
  - simpl. auto.
Defined.

(** For a selection reached by toggling (no duplicates, within the list),
    the select-all button clears it exactly when every value is selected,
    and selects every value otherwise. *)
Theorem toggleAll_clears_iff_all_selected (selected universe : list string) :
  List.NoDup selected -> incl selected universe -> List.NoDup universe -> universe <> [] ->
  (Supplies.toggleAll selected universe = [] <-> incl universe selected)
  /\ (~ incl universe selected -> Supplies.toggleAll selected universe = universe).
Proof.
  intros Hs Hinc Hu Hne.
  assert (Hiff : length selected = length universe <-> incl universe selected).
  { split.
    - intros Hl. apply (NoDup_length_incl Hs); [lia|done].
    - intros Hinc'. apply Nat.le_antisymm; by apply NoDup_incl_length. }
  unfold Supplies.toggleAll.
  destruct (Nat.eqb_spec (length selected) (length universe)) as [Hl|Hl].
  - split; [|intros Hn; exfalso; apply Hn, Hiff, Hl]. split; [intros _; by apply Hiff|done].
  - split; [|done]. split; [done|]. intros H. exfalso. apply Hl, Hiff, H.
Qed.

Lemma toggleAll_clears_iff_all_selected_witness :
  (Supplies.toggleAll ["b"; "a"] ["a"; "b"] = [] <-> incl ["a"; "b"] ["b"; "a"])
  /\ (~ incl ["a"; "b"] ["b"; "a"] -> Supplies.toggleAll ["b"; "a"] ["a"; "b"] = ["a"; "b"]).
Proof.
  apply toggleAll_clears_iff_all_selected.
  - repeat constructor; simpl; intuition discriminate.
  - intros y Hy. simpl in *. intuition.
  - repeat constructor; simpl; intuition discriminate.
  - discriminate.
Defined.

Lemma str_includes_empty (s : string) : Supplies.str_includes s "" = true.
Proof. destruct s; reflexivity. Qed.

(** The supply search ignores case: two search terms with the same lower
    case form show the same supplies, and an empty search filters by the
    selected categories and locations only. *)
Theorem supply_search_case_insensitive (supplies : list Supplies.Supply)
  (s1 s2 : string) (cats locs : list string) :
  (toLowerCase s1 = toLowerCase s2 ->
   Supplies.filteredSupplies supplies s1 cats locs
   = Supplies.filteredSupplies supplies s2 cats locs)
  /\ Supplies.filteredSupplies supplies "" cats locs
     = List.filter (fun supply => Supplies.includes cats (Supplies.category supply)
                                  && Supplies.includes locs (Supplies.location supply))
         supplies.
Proof.
  split.
  - intros H. unfold Supplies.filteredSupplies. by rewrite H.
  - unfold Supplies.filteredSupplies. apply filter_ext. intros a.
    simpl. by rewrite str_includes_empty.
Qed.

Lemma toggle_flips_only_target_witness :
  Supplies.includes (Supplies.toggle ["Bay 1"] "Bay 2") "Bay 1" = Supplies.includes ["Bay 1"] "Bay 1".
Proof. apply (proj2 (toggle_flips_only_target ["Bay 1"] "Bay 2" "Bay 1")). discriminate. Defined.

Lemma supply_search_case_insensitive_witness :
  Supplies.filteredSupplies [maple] "MAPLE" Supplies.categories Supplies.locations
  = Supplies.filteredSupplies [maple] "maple" Supplies.categories Supplies.locations.
Proof.
  apply (proj1 (supply_search_case_insensitive [maple] "MAPLE" "maple"
                  Supplies.categories Supplies.locations)).
  reflexivity.
Defined.
